(** * aws-auto-db-snapshot: the backup-and-replicate Lambda handler

    A shallow embedding of [lambda_function.py].  The module's top-level
    statements become [load_module], the handler becomes [lambda_handler];
    both run in a small monad that threads the provider's state, records
    every boto3 call with its outcome and every printed line, and carries
    raised exceptions.  boto3 itself is the environment: it is an arbitrary
    function from a call and a provider state to an outcome and a new
    state. *)

From Stdlib Require Import String Ascii List ZArith NArith Lia Bool Arith.
From Stdlib Require Import DecimalString DecimalN.
Import ListNotations.
Local Open Scope string_scope.

(** ** Python values *)

(** The event payload, the context object and the responses of the
    provider are Python objects the handler never looks into. *)
#[local] Unset Elimination Schemes.
Inductive pyobj : Type :=
| PyNone
| PyBool (b : bool)
| PyInt (z : Z)
| PyStr (s : string)
| PyList (items : list pyobj)
| PyDict (items : list (string * pyobj)).
#[local] Set Elimination Schemes.

(** An instance of [Exception], as botocore raises them (ClientError,
    WaiterError, EndpointConnectionError, ...): [str] is what [str(e)]
    evaluates to. *)
Record exn : Type := Exception { str : string }.

(** What [datetime.utcnow()] returns. *)
Record datetime : Type := Datetime {
  year : N; month : N; day : N;
  hour : N; minute : N; second : N;
  microsecond : N
}.

(** ** Strings *)

Fixpoint repeat_char (c : ascii) (n : nat) : string :=
  match n with
  | O => ""
  | S k => String c (repeat_char c k)
  end.

Definition decimal (n : N) : string :=
  NilEmpty.string_of_uint (N.to_uint n).

(** Decimal digits of [n], padded with zeros on the left to [width]. *)
Definition zfill (width : nat) (n : N) : string :=
  let digits := decimal n in
  repeat_char "0" (width - String.length digits) ++ digits.

(** One conversion directive of [strftime]; an unknown directive is kept
    as it is written. *)
Definition directive (c : ascii) (d : datetime) : string :=
  if Ascii.eqb c "Y" then zfill 4 (year d)
  else if Ascii.eqb c "m" then zfill 2 (month d)
  else if Ascii.eqb c "d" then zfill 2 (day d)
  else if Ascii.eqb c "H" then zfill 2 (hour d)
  else if Ascii.eqb c "M" then zfill 2 (minute d)
  else if Ascii.eqb c "S" then zfill 2 (second d)
  else String "%" (String c "").

Fixpoint strftime (d : datetime) (fmt : string) : string :=
  match fmt with
  | "" => ""
  | String c rest =>
      if Ascii.eqb c "%" then
        match rest with
        | String k rest' => directive k d ++ strftime d rest'
        | "" => String c ""
        end
      else String c (strftime d rest)
  end.

(** [contains sub s]: Python's [sub in s]. *)
Fixpoint contains (sub s : string) : bool :=
  prefix sub s ||
  match s with
  | "" => false
  | String _ rest => contains sub rest
  end.

(** Fields of a colon-separated identifier such as an ARN. *)
Fixpoint split_colon (s : string) : list string :=
  match s with
  | "" => [""]
  | String c rest =>
      if Ascii.eqb c ":" then "" :: split_colon rest
      else match split_colon rest with
           | [] => [String c ""]
           | f :: fs => String c f :: fs
           end
  end.

(** The region field of [arn:partition:service:region:account:resource]. *)
Definition arn_region (arn : string) : option string :=
  nth_error (split_colon arn) 3.

(** ** The provider interface *)

(** A client object, [boto3.client(service_name, region_name=...)]. *)
Record client : Type := Client {
  service_name : string;
  region_name : string
}.

(** A waiter object, [client.get_waiter(waiter_name)]. *)
Record waiter : Type := Waiter {
  waiter_client : client;
  waiter_name : string
}.

Record WaiterConfig : Type := mkWaiterConfig {
  Delay : Z;
  MaxAttempts : Z
}.

(** The boto3 calls the program makes, with their keyword arguments. *)
Inductive call : Type :=
| boto3_client (service region : string)
| create_db_snapshot (c : client)
    (DBInstanceIdentifier DBSnapshotIdentifier : string)
| get_waiter (c : client) (name : string)
| wait (w : waiter) (DBSnapshotIdentifier : string) (cfg : WaiterConfig)
| copy_db_snapshot (c : client)
    (SourceDBSnapshotIdentifier TargetDBSnapshotIdentifier
     SourceRegion KmsKeyId : string).

Inductive outcome : Type :=
| Returns (response : pyobj)
| Raises (e : exn).

(** What an observer of one run sees, in order. *)
Inductive event : Type :=
| Called (c : call) (o : outcome)
| Printed (line : string).

(** The handler's return value. *)
Record response : Type := mkResponse {
  statusCode : Z;
  body : string
}.

(** The module's global names after import. *)
Record globals : Type := mkGlobals {
  source_region : string;
  destination_region : string;
  db_instance_identifier : string;
  account_id : string;
  timestamp : string;
  snapshot_name : string;
  copy_name : string;
  rds : client
}.

(** One invocation as the Lambda runtime delivers it. *)
Record invocation : Type := mkInvocation {
  start : datetime;
  inv_event : pyobj;
  inv_context : pyobj
}.

(** The key the copy request names; a literal of the source. *)
Definition KmsKeyId_literal : string :=
  "arn:aws:kms:eu-central-1:412381770444:key/c6d78a6d-854d-4e15-9fc7-b4ee1c15131c".

Section Workflow.

(** The provider: any state type, any reaction to a call. *)
Context {S : Type}.
Variable provider : call -> S -> outcome * S.

Record world : Type := mkWorld {
  clock : datetime;
  provider_state : S
}.

(** A computation returns a value or raises, changes the world and
    leaves a log. *)
Definition M (A : Type) : Type := world -> (A + exn) * world * list event.

Definition ret {A} (a : A) : M A := fun w => (inl a, w, []).

Definition bind {A B} (m : M A) (k : A -> M B) : M B := fun w =>
  match m w with
  | (inl a, w1, l1) =>
      match k a w1 with
      | (r, w2, l2) => (r, w2, (l1 ++ l2)%list)
      end
  | (inr e, w1, l1) => (inr e, w1, l1)
  end.

(** [try: body  except Exception as e: handler e]. *)
Definition try_except {A} (body0 : M A) (handler : exn -> M A) : M A :=
  fun w =>
    match body0 w with
    | (inl a, w1, l1) => (inl a, w1, l1)
    | (inr e, w1, l1) =>
        match handler e w1 with
        | (r, w2, l2) => (r, w2, (l1 ++ l2)%list)
        end
    end.

Definition invoke (c : call) : M pyobj := fun w =>
  match provider c (provider_state w) with
  | (Returns v, s) => (inl v, mkWorld (clock w) s, [Called c (Returns v)])
  | (Raises e, s) => (inr e, mkWorld (clock w) s, [Called c (Raises e)])
  end.

Definition print (line : string) : M unit :=
  fun w => (inl tt, w, [Printed line]).

Definition utcnow : M datetime := fun w => (inl (clock w), w, []).

Notation "x <- m ;; k" := (bind m (fun x => k))
  (at level 61, m at next level, right associativity).
Notation "m ;;; k" := (bind m (fun _ => k))
  (at level 61, right associativity).

Definition new_client (service region : string) : M client :=
  _ <- invoke (boto3_client service region) ;;
  ret (Client service region).

Definition new_waiter (c : client) (name : string) : M waiter :=
  _ <- invoke (get_waiter c name) ;;
  ret (Waiter c name).

(** The module's top-level statements, run once when the module is
    imported. *)
Definition load_module : M globals :=
  let source_region := "source-region" in
  let destination_region := "destination-region" in
  let db_instance_identifier := "mainline-pro-db" in
  let account_id := "add-your-aws-account-id-here" in
  now <- utcnow ;;
  let timestamp := strftime now "%Y%m%d-%H%M%S" in
  let snapshot_name := "rds-auto-snapshot-mainline-" ++ timestamp in
  let copy_name := "rds-auto-copy-mainline-" ++ timestamp in
  rds <- new_client "rds" source_region ;;
  ret (mkGlobals source_region destination_region db_instance_identifier
         account_id timestamp snapshot_name copy_name rds).

Definition lambda_handler (g : globals) (event context : pyobj)
  : M response :=
  try_except
    (create_response <-
       invoke (create_db_snapshot (rds g)
                 (db_instance_identifier g) (snapshot_name g)) ;;
     print ("Snapshot creation initiated: " ++ snapshot_name g) ;;;
     print "⏳ Waiting for snapshot to become available..." ;;;
     waiter <- new_waiter (rds g) "db_snapshot_available" ;;
     _ <- invoke (wait waiter (snapshot_name g)
                    (mkWaiterConfig 30 10)) ;;
     print "Snapshot is now available!" ;;;
     let snapshot_arn :=
       "arn:aws:rds:" ++ source_region g ++ ":" ++ account_id g
         ++ ":snapshot:" ++ snapshot_name g in
     dest_rds <- new_client "rds" (destination_region g) ;;
     copy_response <-
       invoke (copy_db_snapshot dest_rds snapshot_arn (copy_name g)
                 (source_region g) KmsKeyId_literal) ;;
     print ("Snapshot copy initiated: " ++ copy_name g) ;;;
     ret (mkResponse 200
            ("Snapshot " ++ snapshot_name g ++ " created and copied as "
               ++ copy_name g ++ " to " ++ destination_region g)))
    (fun e =>
       print ("Error occurred: " ++ str e) ;;;
       ret (mkResponse 500 ("Failed: " ++ str e))).

(** What one run leaves: the value, the world, the log. *)
Definition value_of {A} (x : (A + exn) * world * list event) : A + exn :=
  fst (fst x).
Definition world_of {A} (x : (A + exn) * world * list event) : world :=
  snd (fst x).
Definition log_of {A} (x : (A + exn) * world * list event) : list event :=
  snd x.

(** A warm execution environment: the handler of the loaded module
    serves the invocations one after the other; the runtime's clock
    shows each invocation's start time when the handler is entered. *)
Fixpoint serve (g : globals) (invs : list invocation) (s : S)
  : list ((response + exn) * list event) :=
  match invs with
  | [] => []
  | i :: rest =>
      let run :=
        lambda_handler g (inv_event i) (inv_context i)
          (mkWorld (start i) s) in
      (value_of run, log_of run)
        :: serve g rest (provider_state (world_of run))
  end.

(** A process: import at [t0], then serve. An import that raises leaves
    no handler. *)
Definition process (t0 : datetime) (invs : list invocation) (s : S)
  : (list ((response + exn) * list event)) + exn :=
  let init := load_module (mkWorld t0 s) in
  match value_of init with
  | inl g => inl (serve g invs (provider_state (world_of init)))
  | inr e => inr e
  end.

End Workflow.

Arguments world S : clear implicits.
Arguments mkWorld {S} clock provider_state.

(** ** Providers to run the program against *)

(** A test double that answers the calls it receives from a script, one
    outcome per call, and returns [None] once the script is used up. *)
Definition scripted (c : call) (script : list outcome)
  : outcome * list outcome :=
  match script with
  | [] => (Returns PyNone, [])
  | o :: rest => (o, rest)
  end.

(** A database service seen through its snapshot status: the status the
    [k]-th status query reports, the queries made and the time slept. *)
Record service : Type := mkService {
  status_at : nat -> string;
  polls : nat;
  slept : Z
}.



Definition WaiterError : exn := Exception "Max attempts exceeded".




(** ** Observations on a log *)

Definition is_create (c : call) : bool :=
  match c with create_db_snapshot _ _ _ => true | _ => false end.

Definition is_wait (c : call) : bool :=
  match c with wait _ _ _ => true | _ => false end.

Definition is_copy (c : call) : bool :=
  match c with copy_db_snapshot _ _ _ _ _ => true | _ => false end.

(** [e1] occurs in the log before [e2]. *)
Definition precedes (e1 e2 : event) (log : list event) : Prop :=
  exists l1 l2 l3, log = (l1 ++ e1 :: l2 ++ e2 :: l3)%list.

(** The snapshot names of the create requests and the target names of the
    copy requests in a log. *)
Fixpoint created_names (log : list event) : list string :=
  match log with
  | [] => []
  | Called (create_db_snapshot _ _ n) _ :: rest => n :: created_names rest
  | _ :: rest => created_names rest
  end.

Fixpoint copied_names (log : list event) : list string :=
  match log with
  | [] => []
  | Called (copy_db_snapshot _ _ t _ _) _ :: rest => t :: copied_names rest
  | _ :: rest => copied_names rest
  end.

(** The claim that the copy's key is one of the destination region. *)
Definition copy_key_in_destination (g : globals) (log : list event) : Prop :=
  forall c s t r k o,
    In (Called (copy_db_snapshot c s t r k) o) log ->
    arn_region k = Some (destination_region g).

(** ** Concrete inputs *)

Local Open Scope N_scope.
Definition new_year : datetime := Datetime 2026 1 1 0 0 0 0.
Definition five_seconds_later : datetime := Datetime 2026 1 1 0 0 5 0.
Definition next_morning : datetime := Datetime 2026 1 2 6 30 15 250000.
Local Close Scope N_scope.

(** The module as imported at [new_year]. *)
Definition module_at_new_year : globals :=
  mkGlobals "source-region" "destination-region" "mainline-pro-db"
    "add-your-aws-account-id-here" "20260101-000000"
    "rds-auto-snapshot-mainline-20260101-000000"
    "rds-auto-copy-mainline-20260101-000000"
    (Client "rds" "source-region").

Definition scheduled_event : pyobj :=
  PyDict [("source", PyStr "aws.events"); ("detail", PyDict [])].

Definition AlreadyExists : exn :=
  Exception "An error occurred (DBSnapshotAlreadyExists) when calling the CreateDBSnapshot operation".

Definition CopyRejected : exn :=
  Exception "An error occurred (KMSKeyNotAccessibleFault) when calling the CopyDBSnapshot operation".

(** A test double that keeps the snapshot identifiers in use and refuses
    a create request for one of them. *)
Definition snapshot_store (c : call) (names : list string)
  : outcome * list string :=
  match c with
  | create_db_snapshot _ _ n =>
      if existsb (String.eqb n) names then (Raises AlreadyExists, names)
      else (Returns PyNone, n :: names)
  | _ => (Returns PyNone, names)
  end.

Definition first_call : invocation :=
  mkInvocation five_seconds_later scheduled_event PyNone.

Definition second_call : invocation :=
  mkInvocation next_morning scheduled_event PyNone.

Definition cold_world (script : list outcome) : world (list outcome) :=
  mkWorld new_year script.

Definition ok : outcome := Returns PyNone.

(** The handler of the module imported at [new_year], run against a
    script. *)
Definition scripted_run (script : list outcome) :=
  lambda_handler scripted module_at_new_year scheduled_event PyNone
    (cold_world script).


(** ** The runs of the handler *)

(** The requests of one invocation, as the handler builds them. *)
Definition create_request (g : globals) : call :=
  create_db_snapshot (rds g) (db_instance_identifier g) (snapshot_name g).

Definition get_waiter_request (g : globals) : call :=
  get_waiter (rds g) "db_snapshot_available".

Definition wait_request (g : globals) : call :=
  wait (Waiter (rds g) "db_snapshot_available") (snapshot_name g)
    (mkWaiterConfig 30 10).

Definition client_request (g : globals) : call :=
  boto3_client "rds" (destination_region g).

Definition copy_request (g : globals) : call :=
  copy_db_snapshot (Client "rds" (destination_region g))
    ("arn:aws:rds:" ++ source_region g ++ ":" ++ account_id g
       ++ ":snapshot:" ++ snapshot_name g)
    (copy_name g) (source_region g) KmsKeyId_literal.

Definition failure (e : exn) : response :=
  mkResponse 500 ("Failed: " ++ str e).

Definition caught (e : exn) : list event :=
  [Printed ("Error occurred: " ++ str e)].

Definition created (g : globals) (v : pyobj) : list event :=
  [Called (create_request g) (Returns v);
   Printed ("Snapshot creation initiated: " ++ snapshot_name g);
   Printed "⏳ Waiting for snapshot to become available..."].

Definition waited (g : globals) (v : pyobj) : list event :=
  [Called (wait_request g) (Returns v);
   Printed "Snapshot is now available!"].

(** The return value and the log of every run: the handler stops at the
    first call that raises, or goes through all five. *)
Inductive handler_run (g : globals) : response -> list event -> Prop :=
| create_raised e :
    handler_run g (failure e)
      (Called (create_request g) (Raises e) :: caught e)
| get_waiter_raised v1 e :
    handler_run g (failure e)
      (created g v1
         ++ Called (get_waiter_request g) (Raises e) :: caught e)
| wait_raised v1 v2 e :
    handler_run g (failure e)
      (created g v1
         ++ Called (get_waiter_request g) (Returns v2)
         :: Called (wait_request g) (Raises e) :: caught e)
| client_raised v1 v2 v3 e :
    handler_run g (failure e)
      (created g v1
         ++ Called (get_waiter_request g) (Returns v2)
         :: waited g v3
         ++ Called (client_request g) (Raises e) :: caught e)
| copy_raised v1 v2 v3 v4 e :
    handler_run g (failure e)
      (created g v1
         ++ Called (get_waiter_request g) (Returns v2)
         :: waited g v3
         ++ Called (client_request g) (Returns v4)
         :: Called (copy_request g) (Raises e) :: caught e)
| completed v1 v2 v3 v4 v5 :
    handler_run g
      (mkResponse 200
         ("Snapshot " ++ snapshot_name g ++ " created and copied as "
            ++ copy_name g ++ " to " ++ destination_region g))
      (created g v1
         ++ Called (get_waiter_request g) (Returns v2)
         :: waited g v3
         ++ Called (client_request g) (Returns v4)
         :: Called (copy_request g) (Returns v5)
         :: [Printed ("Snapshot copy initiated: " ++ copy_name g)]).

(** The module as imported at [five_seconds_later]. *)
Definition module_five_seconds_later : globals :=
  mkGlobals "source-region" "destination-region" "mainline-pro-db"
    "add-your-aws-account-id-here" "20260101-000005"
    "rds-auto-snapshot-mainline-20260101-000005"
    "rds-auto-copy-mainline-20260101-000005"
    (Client "rds" "source-region").

(** ** Further observations *)

(** The calls of a log, in the order they were made. *)
Fixpoint calls_of (log : list event) : list call :=
  match log with
  | [] => []
  | Called c _ :: rest => c :: calls_of rest
  | Printed _ :: rest => calls_of rest
  end.

(** The five requests of a complete run, in the order of the source. *)
Definition workflow (g : globals) : list call :=
  [create_request g; get_waiter_request g; wait_request g;
   client_request g; copy_request g].

(** The first call of a log that raised, with what the log holds after
    it. *)
Fixpoint first_raise (log : list event) : option (exn * list event) :=
  match log with
  | [] => None
  | Called _ (Raises e) :: rest => Some (e, rest)
  | _ :: rest => first_raise rest
  end.

Fixpoint all_chars (p : ascii -> bool) (s : string) : bool :=
  match s with
  | "" => true
  | String c rest => p c && all_chars p rest
  end.

Definition is_digit (c : ascii) : bool :=
  let n := nat_of_ascii c in (48 <=? n)%nat && (n <=? 57)%nat.

(** Lower-case letters, digits and the hyphen. *)
Definition is_name_char (c : ascii) : bool :=
  let n := nat_of_ascii c in
  is_digit c || ((97 <=? n)%nat && (n <=? 122)%nat) || Ascii.eqb c "-".

Definition no_colon (s : string) : bool :=
  all_chars (fun c => negb (Ascii.eqb c ":")) s.

(** Reads a string of decimal digits back. *)
Definition read_decimal (s : string) : option N :=
  option_map N.of_uint (NilEmpty.uint_of_string s).

(** The datetimes [utcnow] can return whose year [%Y] prints with four
    digits on every platform. *)
Definition valid_datetime (d : datetime) : bool :=
  ((1000 <=? year d) && (year d <=? 9999)
   && (1 <=? month d) && (month d <=? 12)
   && (1 <=? day d) && (day d <=? 31)
   && (hour d <? 24) && (minute d <? 60) && (second d <? 60)
   && (microsecond d <? 1000000))%N.

(** Two datetimes within the same second. *)
Definition same_second (d1 d2 : datetime) : Prop :=
  year d1 = year d2 /\ month d1 = month d2 /\ day d1 = day d2
  /\ hour d1 = hour d2 /\ minute d1 = minute d2 /\ second d1 = second d2.

(** * Properties *)

(** ** Facts about strings *)

Lemma prefix_append (s t : string) : prefix s (s ++ t) = true.
Proof.
  induction s as [|a s IH]; simpl.
  - now destruct t.
  - destruct (ascii_dec a a) as [_|ne]; [exact IH | now elim ne].
Qed.

Lemma contains_tail (sub a s : string) :
  contains sub s = true -> contains sub (a ++ s) = true.
Proof.
  intros H. induction a as [|c a IH]; simpl.
  - exact H.
  - rewrite IH. apply orb_true_r.
Qed.

Lemma contains_middle (sub a b : string) :
  contains sub (a ++ sub ++ b) = true.
Proof.
  apply contains_tail.
  destruct sub as [|c sub]; [now destruct b|].
  change (String c sub ++ b) with (String c (sub ++ b)).
  cbn [contains].
  change (String c (sub ++ b)) with (String c sub ++ b).
  now rewrite prefix_append.
Qed.

Lemma append_empty_r (s : string) : s ++ "" = s.
Proof.
  induction s as [|a s IH]; simpl; [reflexivity | now rewrite IH].
Qed.

Lemma contains_end (sub a : string) : contains sub (a ++ sub) = true.
Proof.
  rewrite <- (append_empty_r sub) at 2. apply contains_middle.
Qed.

(** ** The handler against any provider *)

Section Properties.

Context {S : Type}.
Variable provider : call -> S -> outcome * S.

(** Runs the handler symbolically: one case per outcome of each call
    the provider is asked. *)
Ltac ask_provider :=
  match goal with
  | |- context [provider ?c ?s] =>
      let o := fresh "o" in
      let s' := fresh "s" in
      let v := fresh "v" in
      let e := fresh "e" in
      destruct (provider c s) as [o s']; destruct o as [v|e];
      cbn -[String.append]
  end.

Lemma lambda_handler_run g ev ctx w :
  exists r, value_of (lambda_handler provider g ev ctx w) = inl r
    /\ handler_run g r (log_of (lambda_handler provider g ev ctx w)).
Proof.
  unfold value_of, log_of, lambda_handler, new_waiter, new_client,
    try_except, bind, invoke, print, ret.
  cbn -[String.append].
  repeat ask_provider; eexists; (split; [reflexivity|]).
  - apply completed.
  - apply copy_raised.
  - apply client_raised.
  - apply wait_raised.
  - apply get_waiter_raised.
  - apply create_raised.
Qed.

Ltac the_run g ev ctx w r Hv Hrun :=
  destruct (lambda_handler_run g ev ctx w) as (r & Hv & Hrun);
  rewrite Hv;
  generalize dependent (log_of (lambda_handler provider g ev ctx w)).

(** Splits a membership in an explicit log into its cases. *)
Ltac in_log H :=
  cbn [created waited caught app In] in H;
  repeat (destruct H as [H|H]; [try discriminate H|]);
  try contradiction.


(** C1: if a call to the provider raises during an invocation (the
    create, the wait or the copy, and the two constructor calls
    alike), the handler returns statusCode 500 and the body
    "Failed: " followed by the exception's message. *)
Theorem failure_wrapped g ev ctx w c e :
  In (Called c (Raises e))
     (log_of (lambda_handler provider g ev ctx w)) ->
  value_of (lambda_handler provider g ev ctx w)
  = inl (mkResponse 500 ("Failed: " ++ str e)).
Proof.
  the_run g ev ctx w r Hv Hrun.
  intros log Hrun H.
  destruct Hrun; in_log H; now inversion H.
Qed.

(** C2: if the create, the wait and the copy of an invocation all
    returned, the handler returns statusCode 200 and a body that
    contains the snapshot name of the create request, the target name
    of the copy request and the destination region. *)
Theorem success_shape g ev ctx w
    c1 inst name v1 cw v2 c2 src target reg key v3 :
  In (Called (create_db_snapshot c1 inst name) (Returns v1))
     (log_of (lambda_handler provider g ev ctx w)) ->
  is_wait cw = true ->
  In (Called cw (Returns v2))
     (log_of (lambda_handler provider g ev ctx w)) ->
  In (Called (copy_db_snapshot c2 src target reg key) (Returns v3))
     (log_of (lambda_handler provider g ev ctx w)) ->
  exists r,
    value_of (lambda_handler provider g ev ctx w) = inl r
    /\ statusCode r = 200%Z
    /\ contains name (body r) = true
    /\ contains target (body r) = true
    /\ contains (destination_region g) (body r) = true.
Proof.
  the_run g ev ctx w r Hv Hrun.
  intros log Hrun Hcreate Hw Hwait Hcopy.
  destruct Hrun; in_log Hcopy.
  in_log Hcreate.
  inversion Hcopy; inversion Hcreate; subst.
  eexists; split; [reflexivity|]. cbn [statusCode body].
  split; [reflexivity|].
  split; [apply contains_middle|].
  split.
  - do 3 apply contains_tail. apply (contains_middle _ "").
  - do 5 apply contains_tail. apply (contains_end _ "").
Qed.

(** C3: a copy request is issued only after a wait that returned (the
    waiter returns when the snapshot is available); and if the wait
    raises, the handler returns statusCode 500 and the log of the
    invocation holds no copy request. *)
Theorem copy_requires_wait g ev ctx w :
  (forall cc o,
      is_copy cc = true ->
      In (Called cc o) (log_of (lambda_handler provider g ev ctx w)) ->
      exists cw v,
        is_wait cw = true
        /\ precedes (Called cw (Returns v)) (Called cc o)
             (log_of (lambda_handler provider g ev ctx w)))
  /\ (forall cw e,
         is_wait cw = true ->
         In (Called cw (Raises e))
            (log_of (lambda_handler provider g ev ctx w)) ->
         (exists r,
             value_of (lambda_handler provider g ev ctx w) = inl r
             /\ statusCode r = 500%Z)
         /\ forall cc o,
             In (Called cc o)
                (log_of (lambda_handler provider g ev ctx w)) ->
             is_copy cc = false).
Proof.
  the_run g ev ctx w r Hv Hrun.
  intros log Hrun. split.
  - intros cc o Hcc H.
    destruct Hrun; in_log H; inversion H; subst; try discriminate Hcc.
    + exists (wait_request g), v3. split; [reflexivity|].
      exists (created g v1 ++ [Called (get_waiter_request g) (Returns v2)])%list,
        [Printed "Snapshot is now available!";
         Called (client_request g) (Returns v4)],
        (caught e).
      reflexivity.
    + exists (wait_request g), v3. split; [reflexivity|].
      exists (created g v1 ++ [Called (get_waiter_request g) (Returns v2)])%list,
        [Printed "Snapshot is now available!";
         Called (client_request g) (Returns v4)],
        [Printed ("Snapshot copy initiated: " ++ copy_name g)].
      reflexivity.
  - intros cw e Hcw H.
    destruct Hrun; in_log H; inversion H; subst; try discriminate Hcw.
    split.
    + eexists; split; reflexivity.
    + intros cc o Hin. in_log Hin; inversion Hin; reflexivity.
Qed.

(** C8: the source reference of every copy request is assembled from
    the source region, the account identifier, the resource type
    "snapshot" and the snapshot name, whatever the provider answered
    before, and the request names the source region. *)
Theorem copy_source_constructed g ev ctx w c src target reg key o :
  In (Called (copy_db_snapshot c src target reg key) o)
     (log_of (lambda_handler provider g ev ctx w)) ->
  src = "arn:aws:rds:" ++ source_region g ++ ":" ++ account_id g
          ++ ":snapshot:" ++ snapshot_name g
  /\ reg = source_region g.
Proof.
  generalize (log_of (lambda_handler provider g ev ctx w)),
    (lambda_handler_run g ev ctx w).
  intros log (r & _ & Hrun) H.
  destruct Hrun; in_log H; inversion H; subst; split; reflexivity.
Qed.

(** C6, as the code has it: every copy request names one and the same
    key, the literal of the source, whose region field is eu-central-1
    whatever the configured destination region is. *)
Theorem copy_key_is_literal g ev ctx w c src target reg key o :
  In (Called (copy_db_snapshot c src target reg key) o)
     (log_of (lambda_handler provider g ev ctx w)) ->
  key = KmsKeyId_literal /\ arn_region key = Some "eu-central-1".
Proof.
  generalize (log_of (lambda_handler provider g ev ctx w)),
    (lambda_handler_run g ev ctx w).
  intros log (r & _ & Hrun) H.
  destruct Hrun; in_log H; inversion H; subst; split; reflexivity.
Qed.

(** C9: the event and the context are ignored: two invocations that
    differ in them only return the same record, leave the provider in
    the same state and make the same calls. *)
Theorem event_context_ignored g ev1 ctx1 ev2 ctx2 w :
  lambda_handler provider g ev1 ctx1 w
  = lambda_handler provider g ev2 ctx2 w.
Proof. reflexivity. Qed.

(** The names in the requests are those of the module, whatever the
    clock shows when the handler runs. *)
Lemma handler_names g ev ctx w :
  created_names (log_of (lambda_handler provider g ev ctx w))
  = [snapshot_name g]
  /\ (copied_names (log_of (lambda_handler provider g ev ctx w)) = []
      \/ copied_names (log_of (lambda_handler provider g ev ctx w))
         = [copy_name g]).
Proof.
  generalize (log_of (lambda_handler provider g ev ctx w)),
    (lambda_handler_run g ev ctx w).
  intros log (r & _ & Hrun).
  destruct Hrun; cbn; auto.
Qed.

(** The module's names are fixed by the clock at import. *)
Lemma load_module_names w g :
  value_of (load_module provider w) = inl g ->
  timestamp g = strftime (clock w) "%Y%m%d-%H%M%S"
  /\ snapshot_name g = "rds-auto-snapshot-mainline-" ++ timestamp g
  /\ copy_name g = "rds-auto-copy-mainline-" ++ timestamp g.
Proof.
  unfold value_of, load_module, new_client, bind, invoke, utcnow, ret.
  cbn -[String.append strftime].
  destruct (provider _ _) as [[v|e] s]; cbn -[String.append strftime];
    intros H; inversion H; subst; cbn -[String.append strftime]; auto.
Qed.

End Properties.

(** ** The polling loop *)



(** ** A warm execution environment *)

(** Every invocation a process serves asks for a snapshot of the one
    name fixed at import, whenever the invocation starts. *)
Lemma serve_created_names {S : Type} (provider : call -> S -> outcome * S)
    (g : globals) (invs : list invocation) :
  forall s,
    Forall (fun run => created_names (snd run) = [snapshot_name g])
      (serve provider g invs s).
Proof.
  induction invs as [|i invs IH]; intros s; cbn [serve].
  - constructor.
  - constructor; [|apply IH].
    cbn [snd]. apply handler_names.
Qed.

Lemma load_at_new_year :
  value_of (load_module scripted (mkWorld new_year []))
  = inl module_at_new_year.
Proof. reflexivity. Qed.

(** C4: the timestamp is read when the module is imported, not when an
    invocation starts: a process imported at 2026-01-01 00:00:00 that
    serves an invocation starting 2026-01-02 06:30:15 asks for snapshot
    and copy names that carry 20260101-000000, not 20260102-063015. *)
Theorem timestamp_read_at_import :
  exists run,
    process scripted new_year [second_call] [] = inl [run]
    /\ created_names (snd run)
       = ["rds-auto-snapshot-mainline-20260101-000000"]
    /\ copied_names (snd run) = ["rds-auto-copy-mainline-20260101-000000"]
    /\ strftime (start second_call) "%Y%m%d-%H%M%S" = "20260102-063015".
Proof.
  eexists. split; [reflexivity|].
  repeat split; reflexivity.
Qed.

(** C5: two invocations of one process that start more than a day
    apart ask for the same snapshot name, so the second create request
    is refused by a provider that keeps its snapshot identifiers unique
    and the second invocation fails; against a provider that accepts
    everything both also ask for the same copy name. *)
Theorem names_repeat_across_invocations :
  (exists run1 run2,
      process snapshot_store new_year [first_call; second_call] []
      = inl [run1; run2]
      /\ created_names (snd run1) = created_names (snd run2)
      /\ created_names (snd run1)
         = ["rds-auto-snapshot-mainline-20260101-000000"]
      /\ fst run1
         = inl (mkResponse 200
                  "Snapshot rds-auto-snapshot-mainline-20260101-000000 created and copied as rds-auto-copy-mainline-20260101-000000 to destination-region")
      /\ fst run2 = inl (mkResponse 500 ("Failed: " ++ str AlreadyExists)))
  /\ (exists run1 run2,
         process scripted new_year [first_call; second_call] []
         = inl [run1; run2]
         /\ created_names (snd run1) = created_names (snd run2)
         /\ copied_names (snd run1) = copied_names (snd run2)
         /\ copied_names (snd run1)
            = ["rds-auto-copy-mainline-20260101-000000"]).
Proof.
  split; do 2 eexists; (split; [reflexivity|]); repeat split; reflexivity.
Qed.

(** ** Concrete runs *)

Lemma failure_wrapped_witness :
  (In (Called (create_request module_at_new_year) (Raises AlreadyExists))
      (log_of (scripted_run [Raises AlreadyExists]))
   /\ value_of (scripted_run [Raises AlreadyExists])
      = inl (mkResponse 500 ("Failed: " ++ str AlreadyExists)))
  /\ (In (Called (wait_request module_at_new_year) (Raises WaiterError))
         (log_of (scripted_run [ok; ok; Raises WaiterError]))
      /\ value_of (scripted_run [ok; ok; Raises WaiterError])
         = inl (mkResponse 500 ("Failed: " ++ str WaiterError)))
  /\ (In (Called (copy_request module_at_new_year) (Raises CopyRejected))
         (log_of (scripted_run [ok; ok; ok; ok; Raises CopyRejected]))
      /\ value_of (scripted_run [ok; ok; ok; ok; Raises CopyRejected])
         = inl (mkResponse 500 ("Failed: " ++ str CopyRejected))).
Proof.
  assert (H1 : In (Called (create_request module_at_new_year)
                     (Raises AlreadyExists))
                  (log_of (scripted_run [Raises AlreadyExists])))
    by (vm_compute; left; reflexivity).
  assert (H2 : In (Called (wait_request module_at_new_year)
                     (Raises WaiterError))
                  (log_of (scripted_run [ok; ok; Raises WaiterError])))
    by (vm_compute; do 4 right; left; reflexivity).
  assert (H3 : In (Called (copy_request module_at_new_year)
                     (Raises CopyRejected))
                  (log_of (scripted_run
                             [ok; ok; ok; ok; Raises CopyRejected])))
    by (vm_compute; do 7 right; left; reflexivity).
  split; [|split].
  - split; [exact H1|].
    exact (failure_wrapped scripted _ _ _ _ _ _ H1).
  - split; [exact H2|].
    exact (failure_wrapped scripted _ _ _ _ _ _ H2).
  - split; [exact H3|].
    exact (failure_wrapped scripted _ _ _ _ _ _ H3).
Defined.

Lemma success_shape_witness :
  In (Called (create_request module_at_new_year) ok)
     (log_of (scripted_run []))
  /\ is_wait (wait_request module_at_new_year) = true
  /\ In (Called (wait_request module_at_new_year) ok)
        (log_of (scripted_run []))
  /\ In (Called (copy_request module_at_new_year) ok)
        (log_of (scripted_run []))
  /\ exists r,
      value_of (scripted_run []) = inl r
      /\ statusCode r = 200%Z
      /\ contains "rds-auto-snapshot-mainline-20260101-000000" (body r)
         = true
      /\ contains "rds-auto-copy-mainline-20260101-000000" (body r) = true
      /\ contains "destination-region" (body r) = true.
Proof.
  assert (H1 : In (Called (create_request module_at_new_year) ok)
                  (log_of (scripted_run [])))
    by (vm_compute; left; reflexivity).
  assert (H2 : In (Called (wait_request module_at_new_year) ok)
                  (log_of (scripted_run [])))
    by (vm_compute; do 4 right; left; reflexivity).
  assert (H3 : In (Called (copy_request module_at_new_year) ok)
                  (log_of (scripted_run [])))
    by (vm_compute; do 7 right; left; reflexivity).
  split; [exact H1|]. split; [reflexivity|].
  split; [exact H2|]. split; [exact H3|].
  exact (success_shape scripted module_at_new_year scheduled_event PyNone
           (cold_world []) _ _ _ _ (wait_request module_at_new_year)
           _ _ _ _ _ _ _ H1 eq_refl H2 H3).
Defined.

Lemma copy_requires_wait_witness :
  (In (Called (copy_request module_at_new_year) ok)
      (log_of (scripted_run []))
   /\ exists cw v,
       is_wait cw = true
       /\ precedes (Called cw (Returns v))
            (Called (copy_request module_at_new_year) ok)
            (log_of (scripted_run [])))
  /\ (In (Called (wait_request module_at_new_year) (Raises WaiterError))
         (log_of (scripted_run [ok; ok; Raises WaiterError]))
      /\ (exists r,
             value_of (scripted_run [ok; ok; Raises WaiterError]) = inl r
             /\ statusCode r = 500%Z)
      /\ forall cc o,
          In (Called cc o)
             (log_of (scripted_run [ok; ok; Raises WaiterError])) ->
          is_copy cc = false).
Proof.
  assert (H1 : In (Called (copy_request module_at_new_year) ok)
                  (log_of (scripted_run [])))
    by (vm_compute; do 7 right; left; reflexivity).
  assert (H2 : In (Called (wait_request module_at_new_year)
                     (Raises WaiterError))
                  (log_of (scripted_run [ok; ok; Raises WaiterError])))
    by (vm_compute; do 4 right; left; reflexivity).
  split.
  - split; [exact H1|].
    exact (proj1 (copy_requires_wait scripted module_at_new_year
                    scheduled_event PyNone (cold_world []))
             (copy_request module_at_new_year) ok eq_refl H1).
  - split; [exact H2|].
    exact (proj2 (copy_requires_wait scripted module_at_new_year
                    scheduled_event PyNone
                    (cold_world [ok; ok; Raises WaiterError]))
             (wait_request module_at_new_year) WaiterError eq_refl H2).
Defined.

Lemma copy_source_constructed_witness :
  In (Called (copy_request module_at_new_year) ok)
     (log_of (scripted_run []))
  /\ "arn:aws:rds:source-region:add-your-aws-account-id-here:snapshot:rds-auto-snapshot-mainline-20260101-000000"
     = "arn:aws:rds:" ++ source_region module_at_new_year ++ ":"
         ++ account_id module_at_new_year ++ ":snapshot:"
         ++ snapshot_name module_at_new_year
  /\ "source-region" = source_region module_at_new_year.
Proof.
  assert (H : In (Called (copy_request module_at_new_year) ok)
                 (log_of (scripted_run [])))
    by (vm_compute; do 7 right; left; reflexivity).
  split; [exact H|].
  exact (copy_source_constructed scripted module_at_new_year
           scheduled_event PyNone (cold_world []) _ _ _ _ _ _ H).
Defined.

(** C6, as stated, fails on the module as it is written: the copy
    request of a run names a key of eu-central-1 while the configured
    destination region is "destination-region". *)
Lemma copy_key_not_in_destination :
  ~ copy_key_in_destination module_at_new_year (log_of (scripted_run [])).
Proof.
  intros H.
  assert (Hin : In (Called (copy_request module_at_new_year) ok)
                   (log_of (scripted_run [])))
    by (vm_compute; do 7 right; left; reflexivity).
  specialize (H _ _ _ _ _ _ Hin).
  vm_compute in H. discriminate H.
Qed.

Lemma copy_key_is_literal_witness :
  In (Called (copy_request module_at_new_year) ok)
     (log_of (scripted_run []))
  /\ KmsKeyId_literal = KmsKeyId_literal
  /\ arn_region KmsKeyId_literal = Some "eu-central-1".
Proof.
  assert (H : In (Called (copy_request module_at_new_year) ok)
                 (log_of (scripted_run [])))
    by (vm_compute; do 7 right; left; reflexivity).
  split; [exact H|].
  exact (copy_key_is_literal scripted module_at_new_year
           scheduled_event PyNone (cold_world []) _ _ _ _ _ _ H).
Defined.

(** ** The order and the parameters of the calls *)

Section Calls.

Context {S : Type}.
Variable provider : call -> S -> outcome * S.

Ltac by_cases_of_run g ev ctx w :=
  generalize (lambda_handler_run provider g ev ctx w);
  generalize (log_of (lambda_handler provider g ev ctx w));
  generalize (value_of (lambda_handler provider g ev ctx w)).

Ltac member H :=
  cbn [created waited caught app In] in H;
  repeat (destruct H as [H|H]; [try discriminate H|]);
  try contradiction.

(** X1: the calls of an invocation are the first [n] of the five requests of
    the workflow, in that order and each made once: nothing is retried,
    nothing is cleaned up, and nothing follows the copy request. *)
Theorem calls_in_fixed_order g ev ctx w :
  exists n,
    (1 <= n <= 5)%nat
    /\ calls_of (log_of (lambda_handler provider g ev ctx w))
       = firstn n (workflow g).
Proof.
  by_cases_of_run g ev ctx w. intros val log (r & _ & Hrun).
  destruct Hrun;
    [exists 1%nat | exists 2%nat | exists 3%nat | exists 4%nat
    | exists 5%nat | exists 5%nat];
    (split; [lia | reflexivity]).
Qed.

(** X2: either no call of the invocation raised and the handler answers
    200, or the handler stops at the first call that raised: the only
    thing that follows it is the printed error line, and the answer is
    500 with that same message. *)
Theorem failure_is_final g ev ctx w :
  match first_raise (log_of (lambda_handler provider g ev ctx w)) with
  | None =>
      exists r,
        value_of (lambda_handler provider g ev ctx w) = inl r
        /\ statusCode r = 200%Z
  | Some (e, rest) =>
      rest = [Printed ("Error occurred: " ++ str e)]
      /\ value_of (lambda_handler provider g ev ctx w)
         = inl (mkResponse 500 ("Failed: " ++ str e))
  end.
Proof.
  by_cases_of_run g ev ctx w. intros val log (r & -> & Hrun).
  destruct Hrun; cbn -[String.append]; try (split; reflexivity).
  eexists; split; reflexivity.
Qed.

(** X3: the handler answers 200 exactly when its copy request was accepted. *)
Theorem ok_iff_copy_accepted g ev ctx w r :
  value_of (lambda_handler provider g ev ctx w) = inl r ->
  (statusCode r = 200%Z
   <-> exists v,
       In (Called (copy_request g) (Returns v))
          (log_of (lambda_handler provider g ev ctx w))).
Proof.
  by_cases_of_run g ev ctx w. intros val log (r' & -> & Hrun) E.
  injection E as ->.
  destruct Hrun; cbn [statusCode failure]; split;
    try discriminate;
    try (intros (v & H); member H; discriminate H).
  - intros _. exists v5. cbn. auto 10.
  - reflexivity.
Qed.

(** X4: the wait asks, on the client the snapshot was created with, for the
    snapshot the create request named. *)
Theorem wait_targets_created_snapshot g ev ctx w c inst name o wt name' cfg o' :
  In (Called (create_db_snapshot c inst name) o)
     (log_of (lambda_handler provider g ev ctx w)) ->
  In (Called (wait wt name' cfg) o')
     (log_of (lambda_handler provider g ev ctx w)) ->
  name' = name /\ waiter_client wt = c
  /\ inst = db_instance_identifier g.
Proof.
  by_cases_of_run g ev ctx w. intros val log (r & _ & Hrun) Hc Hw.
  destruct Hrun; member Hw; member Hc;
    inversion Hw; inversion Hc; subst; repeat split.
Qed.

(** X5: the copy is requested from a client of the destination region, for
    the snapshot the create request named, under the copy name. *)
Theorem copy_goes_to_destination g ev ctx w c inst name o c' src target reg key o' :
  In (Called (create_db_snapshot c inst name) o)
     (log_of (lambda_handler provider g ev ctx w)) ->
  In (Called (copy_db_snapshot c' src target reg key) o')
     (log_of (lambda_handler provider g ev ctx w)) ->
  c' = Client "rds" (destination_region g)
  /\ target = copy_name g
  /\ src = "arn:aws:rds:" ++ reg ++ ":" ++ account_id g ++ ":snapshot:"
             ++ name.
Proof.
  by_cases_of_run g ev ctx w. intros val log (r & _ & Hrun) Hc Hw.
  destruct Hrun; member Hw; member Hc;
    inversion Hw; inversion Hc; subst; repeat split.
Qed.

End Calls.

(** ** The source reference *)

Lemma split_colon_field (a b : string) :
  no_colon a = true ->
  split_colon (a ++ String ":" b) = a :: split_colon b.
Proof.
  unfold no_colon. induction a as [|c a IH]; cbn [all_chars append]; intros H.
  - reflexivity.
  - apply andb_prop in H as [Hc Ha].
    cbn [split_colon]. destruct (Ascii.eqb c ":"); [discriminate Hc|].
    now rewrite (IH Ha).
Qed.

(** X6: when the source region holds no colon, the region field of the
    source reference of a copy request is the region the request
    declares as its source region. *)
Theorem source_arn_region {S : Type} (provider : call -> S -> outcome * S)
    g ev ctx w c src target reg key o :
  no_colon (source_region g) = true ->
  In (Called (copy_db_snapshot c src target reg key) o)
     (log_of (lambda_handler provider g ev ctx w)) ->
  arn_region src = Some reg.
Proof.
  intros Hcolon Hin.
  assert (E : src = "arn" ++ String ":" ("aws" ++ String ":" ("rds" ++
                String ":" (source_region g ++ String ":" (account_id g
                  ++ ":snapshot:" ++ snapshot_name g))))
              /\ reg = source_region g).
  { revert Hin.
    generalize (lambda_handler_run provider g ev ctx w);
      generalize (log_of (lambda_handler provider g ev ctx w)).
    intros log (r & _ & Hrun) H.
    destruct Hrun; cbn [created waited caught app In] in H;
      repeat (destruct H as [H|H]; [try discriminate H|]);
      try contradiction; inversion H; subst; split; reflexivity. }
  destruct E as [-> ->]. unfold arn_region.
  rewrite !split_colon_field by (reflexivity || exact Hcolon).
  reflexivity.
Qed.

(** ** Import *)

(** X7: importing the module asks for exactly one thing, the rds client of
    the source region, and an exception of that call is the import's:
    no handler exists then and the process serves no invocation. *)
Theorem import_raises_unguarded {S : Type}
    (provider : call -> S -> outcome * S) t0 invs s :
  log_of (load_module provider (mkWorld t0 s))
  = [Called (boto3_client "rds" "source-region")
       (fst (provider (boto3_client "rds" "source-region") s))]
  /\ forall e,
      process provider t0 invs s = inr e
      <-> fst (provider (boto3_client "rds" "source-region") s) = Raises e.
Proof.
  unfold process, value_of, world_of, log_of, load_module, new_client, bind,
    invoke, utcnow, ret.
  cbn -[String.append strftime].
  destruct (provider (boto3_client "rds" "source-region") s) as [[v|e'] s'];
    cbn -[String.append strftime]; (split; [reflexivity|]);
    intros e; split; intros H; try discriminate H; now inversion H.
Qed.

(** X8: every invocation a process serves asks for the snapshot name and,
    when it gets that far, the copy name that carry the time of the
    import, whatever the time of the invocation. *)
Theorem process_names_fixed {S : Type} (provider : call -> S -> outcome * S)
    t0 invs s runs :
  process provider t0 invs s = inl runs ->
  length runs = length invs
  /\ Forall
       (fun run =>
          created_names (snd run)
          = ["rds-auto-snapshot-mainline-" ++ strftime t0 "%Y%m%d-%H%M%S"]
          /\ (copied_names (snd run) = []
              \/ copied_names (snd run)
                 = ["rds-auto-copy-mainline-"
                      ++ strftime t0 "%Y%m%d-%H%M%S"]))
       runs.
Proof.
  unfold process.
  destruct (value_of (load_module provider (mkWorld t0 s))) as [g|e] eqn:E;
    [|discriminate].
  apply load_module_names in E. cbn [clock] in E.
  destruct E as (Et & Es & Ec). rewrite <- Et, <- Es, <- Ec.
  intros H. injection H as <-.
  generalize (provider_state (world_of (load_module provider (mkWorld t0 s)))).
  induction invs as [|i invs IH]; intros s0; cbn [serve length].
  - split; [reflexivity | constructor].
  - destruct (IH (provider_state
                    (world_of (lambda_handler provider g (inv_event i)
                                 (inv_context i) (mkWorld (start i) s0)))))
      as [Hlen Hall].
    split; [now rewrite Hlen|].
    constructor; [|exact Hall].
    cbn [snd]. apply handler_names.
Qed.

(** ** The timestamp *)

Lemma all_chars_app (p : ascii -> bool) (a b : string) :
  all_chars p (a ++ b) = all_chars p a && all_chars p b.
Proof.
  induction a as [|c a IH]; cbn [append all_chars].
  - reflexivity.
  - now rewrite IH, andb_assoc.
Qed.

Lemma all_chars_weaken (p q : ascii -> bool) (s : string) :
  (forall c, p c = true -> q c = true) ->
  all_chars p s = true -> all_chars q s = true.
Proof.
  intros Hpq. induction s as [|c s IH]; cbn [all_chars]; [reflexivity|].
  intros H. apply andb_prop in H as [Hc Hs].
  now rewrite (Hpq c Hc), (IH Hs).
Qed.

Lemma length_app (a b : string) :
  String.length (a ++ b) = (String.length a + String.length b)%nat.
Proof.
  induction a as [|c a IH]; cbn [append String.length];
    [reflexivity | now rewrite IH].
Qed.

Lemma append_same_length_inj (a a' b b' : string) :
  String.length a = String.length a' ->
  a ++ b = a' ++ b' -> a = a' /\ b = b'.
Proof.
  revert a'. induction a as [|c a IH]; intros [|c' a'] Hlen H;
    try discriminate Hlen.
  - now split.
  - cbn [append] in H. injection H as -> H.
    injection Hlen as Hlen.
    destruct (IH a' Hlen H) as [-> ->]. now split.
Qed.

Lemma decimal_digits (n : N) : all_chars is_digit (decimal n) = true.
Proof.
  unfold decimal. induction (N.to_uint n) as [|d IH|d IH|d IH|d IH|d IH
                                              |d IH|d IH|d IH|d IH|d IH];
    cbn [NilEmpty.string_of_uint all_chars]; [reflexivity|..];
    now rewrite IH.
Qed.

Lemma repeat_zero_digits (k : nat) :
  all_chars is_digit (repeat_char "0" k) = true.
Proof.
  induction k as [|k IH]; cbn [repeat_char all_chars];
    [reflexivity | now rewrite IH].
Qed.

Lemma zfill_digits (width : nat) (n : N) :
  all_chars is_digit (zfill width n) = true.
Proof.
  unfold zfill. now rewrite all_chars_app, repeat_zero_digits, decimal_digits.
Qed.

Lemma read_decimal_zeros (k : nat) (s : string) :
  read_decimal (repeat_char "0" k ++ s) = read_decimal s.
Proof.
  induction k as [|k IH]; cbn [repeat_char append]; [reflexivity|].
  rewrite <- IH. unfold read_decimal. cbn [NilEmpty.uint_of_string].
  now destruct (NilEmpty.uint_of_string (repeat_char "0" k ++ s)).
Qed.

(** Padding loses nothing: the number is read back from its padded
    digits. *)
Lemma read_decimal_zfill (width : nat) (n : N) :
  read_decimal (zfill width n) = Some n.
Proof.
  unfold zfill. rewrite read_decimal_zeros.
  unfold read_decimal, decimal.
  now rewrite NilEmpty.usu; cbn [option_map]; rewrite DecimalN.Unsigned.of_to.
Qed.

Lemma zfill_inj (width : nat) (n m : N) :
  zfill width n = zfill width m -> n = m.
Proof.
  intros H. generalize (read_decimal_zfill width n).
  rewrite H, read_decimal_zfill. congruence.
Qed.

(** A property checked on every number below a bound holds below it. *)
Lemma checked_below (p : N -> bool) (bound : N) :
  forallb p (map N.of_nat (seq 0 (N.to_nat bound))) = true ->
  forall n, (n < bound)%N -> p n = true.
Proof.
  intros H n Hn. rewrite forallb_forall in H. apply H.
  apply in_map_iff. exists (N.to_nat n). split; [apply N2Nat.id|].
  apply in_seq. lia.
Qed.

Lemma zfill2_length (n : N) :
  (n < 100)%N -> String.length (zfill 2 n) = 2%nat.
Proof.
  intros H.
  apply Nat.eqb_eq.
  apply (checked_below (fun k => String.length (zfill 2 k) =? 2)%nat 100%N);
    [vm_compute; reflexivity | exact H].
Qed.

Lemma zfill4_length (n : N) :
  (n < 10000)%N -> String.length (zfill 4 n) = 4%nat.
Proof.
  intros H.
  apply Nat.eqb_eq.
  apply (checked_below (fun k => String.length (zfill 4 k) =? 4)%nat 10000%N);
    [vm_compute; reflexivity | exact H].
Qed.

Lemma timestamp_format (d : datetime) :
  strftime d "%Y%m%d-%H%M%S"
  = zfill 4 (year d) ++ zfill 2 (month d) ++ zfill 2 (day d)
      ++ String "-" (zfill 2 (hour d) ++ zfill 2 (minute d)
                       ++ zfill 2 (second d)).
Proof.
  cbn [strftime directive Ascii.eqb Bool.eqb].
  now rewrite append_empty_r.
Qed.

Lemma valid_datetime_bounds (d : datetime) :
  valid_datetime d = true ->
  (year d < 10000 /\ month d < 100 /\ day d < 100
   /\ hour d < 100 /\ minute d < 100 /\ second d < 100)%N.
Proof.
  unfold valid_datetime. rewrite !andb_true_iff, !N.leb_le, !N.ltb_lt. lia.
Qed.

Lemma timestamp_length (d : datetime) :
  valid_datetime d = true ->
  String.length (strftime d "%Y%m%d-%H%M%S") = 15%nat.
Proof.
  intros H. apply valid_datetime_bounds in H
    as (Hy & Hm & Hd & HH & HM & HS).
  rewrite timestamp_format.
  rewrite !length_app. cbn [String.length]. rewrite !length_app.
  now rewrite zfill4_length, !zfill2_length.
Qed.

Lemma timestamp_chars (d : datetime) :
  all_chars is_name_char (strftime d "%Y%m%d-%H%M%S") = true.
Proof.
  assert (Hz : forall w n, all_chars is_name_char (zfill w n) = true).
  { intros w n. apply (all_chars_weaken is_digit); [|apply zfill_digits].
    intros c Hc. unfold is_name_char. now rewrite Hc. }
  rewrite timestamp_format.
  rewrite !all_chars_app. cbn [all_chars]. rewrite !all_chars_app.
  now rewrite !Hz.
Qed.

(** Two timestamps of valid datetimes are equal exactly when the
    datetimes lie in the same second. *)
Lemma timestamp_injective (d1 d2 : datetime) :
  valid_datetime d1 = true -> valid_datetime d2 = true ->
  (strftime d1 "%Y%m%d-%H%M%S" = strftime d2 "%Y%m%d-%H%M%S"
   <-> same_second d1 d2).
Proof.
  intros H1 H2. rewrite !timestamp_format. split.
  - apply valid_datetime_bounds in H1 as (Hy1 & Hm1 & Hd1 & HH1 & HM1 & HS1).
    apply valid_datetime_bounds in H2 as (Hy2 & Hm2 & Hd2 & HH2 & HM2 & HS2).
    intros E.
    apply append_same_length_inj in E as [Ey E];
      [|now rewrite !zfill4_length].
    apply append_same_length_inj in E as [Em E];
      [|now rewrite !zfill2_length].
    apply append_same_length_inj in E as [Ed E];
      [|now rewrite !zfill2_length].
    injection E as E.
    apply append_same_length_inj in E as [EH E];
      [|now rewrite !zfill2_length].
    apply append_same_length_inj in E as [EM ES];
      [|now rewrite !zfill2_length].
    repeat split; eapply zfill_inj; eassumption.
  - intros (-> & -> & -> & -> & -> & ->). reflexivity.
Qed.

Lemma append_inv_head (a b b' : string) : a ++ b = a ++ b' -> b = b'.
Proof.
  induction a as [|c a IH]; cbn [append]; intros H; [exact H|].
  injection H as H. now apply IH.
Qed.

(** ** The names of a module *)

(** X9: a module imported at a valid datetime has a snapshot name of 42 and
    a copy name of 38 characters, all of them lower-case letters, digits
    or hyphens. *)
Theorem import_names_shape {S : Type} (provider : call -> S -> outcome * S)
    w g :
  value_of (load_module provider w) = inl g ->
  valid_datetime (clock w) = true ->
  String.length (snapshot_name g) = 42%nat
  /\ String.length (copy_name g) = 38%nat
  /\ all_chars is_name_char (snapshot_name g) = true
  /\ all_chars is_name_char (copy_name g) = true.
Proof.
  intros Hg Hv. apply load_module_names in Hg as (Et & -> & ->).
  rewrite Et, !length_app, !all_chars_app, timestamp_length by exact Hv.
  rewrite timestamp_chars. repeat split.
Qed.

(** X10: two imports at valid datetimes give the same snapshot name exactly
    when they fall into the same second, and likewise the same copy
    name: imports in different seconds never collide, imports within
    one second always do. *)
Theorem import_names_distinct {S1 S2 : Type}
    (p1 : call -> S1 -> outcome * S1) (p2 : call -> S2 -> outcome * S2)
    w1 w2 g1 g2 :
  value_of (load_module p1 w1) = inl g1 ->
  value_of (load_module p2 w2) = inl g2 ->
  valid_datetime (clock w1) = true ->
  valid_datetime (clock w2) = true ->
  (snapshot_name g1 = snapshot_name g2
   <-> same_second (clock w1) (clock w2))
  /\ (copy_name g1 = copy_name g2
      <-> same_second (clock w1) (clock w2)).
Proof.
  intros Hg1 Hg2 Hv1 Hv2.
  apply load_module_names in Hg1 as (Et1 & -> & ->).
  apply load_module_names in Hg2 as (Et2 & -> & ->).
  rewrite Et1, Et2.
  rewrite <- (timestamp_injective _ _ Hv1 Hv2).
  split; (split; [apply append_inv_head | now intros ->]).
Qed.

(** ** A provider that keeps snapshot identifiers unique *)

Lemma refused_run g ev ctx t names :
  existsb (String.eqb (snapshot_name g)) names = true ->
  value_of (lambda_handler snapshot_store g ev ctx (mkWorld t names))
  = inl (failure AlreadyExists)
  /\ provider_state
       (world_of (lambda_handler snapshot_store g ev ctx (mkWorld t names)))
     = names.
Proof.
  intros H.
  unfold value_of, world_of, lambda_handler, new_waiter, new_client,
    try_except, bind, invoke, print, ret.
  cbn -[String.append existsb]. rewrite H. split; reflexivity.
Qed.

Lemma accepted_run g ev ctx t names :
  existsb (String.eqb (snapshot_name g)) names = false ->
  (exists r,
      value_of (lambda_handler snapshot_store g ev ctx (mkWorld t names))
      = inl r /\ statusCode r = 200%Z)
  /\ provider_state
       (world_of (lambda_handler snapshot_store g ev ctx (mkWorld t names)))
     = snapshot_name g :: names.
Proof.
  intros H.
  unfold value_of, world_of, lambda_handler, new_waiter, new_client,
    try_except, bind, invoke, print, ret.
  cbn -[String.append existsb]. rewrite H.
  split; [eexists; split; reflexivity | reflexivity].
Qed.

Lemma serve_refused g invs :
  forall names,
    existsb (String.eqb (snapshot_name g)) names = true ->
    Forall (fun run => fst run = inl (failure AlreadyExists))
      (serve snapshot_store g invs names).
Proof.
  induction invs as [|i invs IH]; intros names H; cbn [serve].
  - constructor.
  - destruct (refused_run g (inv_event i) (inv_context i) (start i) names H)
      as [Hv Hs].
    constructor; [exact Hv|].
    rewrite Hs. now apply IH.
Qed.

(** X11: against a provider that refuses a snapshot identifier already in
    use, a process can succeed once at most: the first invocation
    answers 200 when the name is free, and every later invocation
    answers 500, whenever it starts. *)
Theorem only_first_can_succeed t0 i rest names :
  exists run runs,
    process snapshot_store t0 (i :: rest) names = inl (run :: runs)
    /\ (existsb
          (String.eqb
             ("rds-auto-snapshot-mainline-" ++ strftime t0 "%Y%m%d-%H%M%S"))
          names = false ->
        exists r, fst run = inl r /\ statusCode r = 200%Z)
    /\ Forall (fun later => fst later = inl (failure AlreadyExists)) runs.
Proof.
  unfold process.
  destruct (value_of (load_module snapshot_store (mkWorld t0 names)))
    as [g|e] eqn:E; [|discriminate E].
  assert (Hs : provider_state
                 (world_of (load_module snapshot_store (mkWorld t0 names)))
               = names) by reflexivity.
  rewrite Hs.
  apply load_module_names in E as (Et & Es & Ec). cbn [clock] in Et.
  rewrite <- Et, <- Es.
  cbn [serve]. do 2 eexists. split; [reflexivity|]. cbn [fst].
  destruct (existsb (String.eqb (snapshot_name g)) names) eqn:Hin.
  - split; [discriminate|].
    destruct (refused_run g (inv_event i) (inv_context i) (start i) names Hin)
      as [_ ->].
    now apply serve_refused.
  - destruct (accepted_run g (inv_event i) (inv_context i) (start i) names Hin)
      as [Hr ->].
    split; [intros _; exact Hr|].
    apply serve_refused. cbn [existsb]. now rewrite String.eqb_refl.
Qed.

(** ** What the answer depends on *)

(** X12: the answer of the handler depends on the module's names and on the
    first exception alone: two runs of one module in which the same
    exception, or none, was raised first give the same answer, whatever
    the providers returned, whatever the events and the contexts. *)
Theorem answer_determined_by_first_exception {S1 S2 : Type}
    (p1 : call -> S1 -> outcome * S1) (p2 : call -> S2 -> outcome * S2)
    g ev1 ctx1 w1 ev2 ctx2 w2 :
  option_map fst (first_raise (log_of (lambda_handler p1 g ev1 ctx1 w1)))
  = option_map fst (first_raise (log_of (lambda_handler p2 g ev2 ctx2 w2))) ->
  value_of (lambda_handler p1 g ev1 ctx1 w1)
  = value_of (lambda_handler p2 g ev2 ctx2 w2).
Proof.
  destruct (lambda_handler_run p1 g ev1 ctx1 w1) as (r1 & -> & Hrun1).
  destruct (lambda_handler_run p2 g ev2 ctx2 w2) as (r2 & -> & Hrun2).
  destruct Hrun1, Hrun2; cbn -[String.append]; intros H;
    try discriminate H; try reflexivity; now injection H as ->.
Qed.

(** ** Further concrete runs *)

Lemma ok_iff_copy_accepted_witness :
  value_of (scripted_run [])
  = inl (mkResponse 200
           "Snapshot rds-auto-snapshot-mainline-20260101-000000 created and copied as rds-auto-copy-mainline-20260101-000000 to destination-region")
  /\ (200%Z = 200%Z
      <-> exists v,
          In (Called (copy_request module_at_new_year) (Returns v))
             (log_of (scripted_run []))).
Proof.
  split; [reflexivity|].
  exact (ok_iff_copy_accepted scripted module_at_new_year scheduled_event
           PyNone (cold_world []) _ eq_refl).
Defined.

Lemma wait_targets_created_snapshot_witness :
  In (Called (create_request module_at_new_year) ok)
     (log_of (scripted_run [ok; ok; Raises WaiterError]))
  /\ In (Called (wait_request module_at_new_year) (Raises WaiterError))
        (log_of (scripted_run [ok; ok; Raises WaiterError]))
  /\ "rds-auto-snapshot-mainline-20260101-000000"
     = "rds-auto-snapshot-mainline-20260101-000000"
  /\ Client "rds" "source-region" = Client "rds" "source-region"
  /\ "mainline-pro-db" = db_instance_identifier module_at_new_year.
Proof.
  assert (H1 : In (Called (create_request module_at_new_year) ok)
                  (log_of (scripted_run [ok; ok; Raises WaiterError])))
    by (vm_compute; left; reflexivity).
  assert (H2 : In (Called (wait_request module_at_new_year)
                     (Raises WaiterError))
                  (log_of (scripted_run [ok; ok; Raises WaiterError])))
    by (vm_compute; do 4 right; left; reflexivity).
  split; [exact H1|]. split; [exact H2|].
  exact (wait_targets_created_snapshot scripted module_at_new_year
           scheduled_event PyNone (cold_world [ok; ok; Raises WaiterError])
           _ _ _ _ _ _ _ _ H1 H2).
Defined.

Lemma copy_goes_to_destination_witness :
  In (Called (create_request module_at_new_year) ok)
     (log_of (scripted_run []))
  /\ In (Called (copy_request module_at_new_year) ok)
        (log_of (scripted_run []))
  /\ Client "rds" "destination-region"
     = Client "rds" (destination_region module_at_new_year)
  /\ "rds-auto-copy-mainline-20260101-000000"
     = copy_name module_at_new_year
  /\ "arn:aws:rds:source-region:add-your-aws-account-id-here:snapshot:rds-auto-snapshot-mainline-20260101-000000"
     = "arn:aws:rds:" ++ "source-region" ++ ":"
         ++ account_id module_at_new_year ++ ":snapshot:"
         ++ "rds-auto-snapshot-mainline-20260101-000000".
Proof.
  assert (H1 : In (Called (create_request module_at_new_year) ok)
                  (log_of (scripted_run [])))
    by (vm_compute; left; reflexivity).
  assert (H2 : In (Called (copy_request module_at_new_year) ok)
                  (log_of (scripted_run [])))
    by (vm_compute; do 7 right; left; reflexivity).
  split; [exact H1|]. split; [exact H2|].
  exact (copy_goes_to_destination scripted module_at_new_year
           scheduled_event PyNone (cold_world [])
           _ _ _ _ _ _ _ _ _ _ H1 H2).
Defined.

Lemma source_arn_region_witness :
  no_colon (source_region module_at_new_year) = true
  /\ In (Called (copy_request module_at_new_year) ok)
        (log_of (scripted_run []))
  /\ arn_region
       "arn:aws:rds:source-region:add-your-aws-account-id-here:snapshot:rds-auto-snapshot-mainline-20260101-000000"
     = Some "source-region".
Proof.
  assert (H : In (Called (copy_request module_at_new_year) ok)
                 (log_of (scripted_run [])))
    by (vm_compute; do 7 right; left; reflexivity).
  split; [reflexivity|]. split; [exact H|].
  exact (source_arn_region scripted module_at_new_year scheduled_event
           PyNone (cold_world []) _ _ _ _ _ _ eq_refl H).
Defined.

Lemma process_names_fixed_witness :
  exists runs,
    process scripted new_year [first_call; second_call] [] = inl runs
    /\ length runs = 2%nat
    /\ Forall
         (fun run =>
            created_names (snd run)
            = ["rds-auto-snapshot-mainline-"
                 ++ strftime new_year "%Y%m%d-%H%M%S"]
            /\ (copied_names (snd run) = []
                \/ copied_names (snd run)
                   = ["rds-auto-copy-mainline-"
                        ++ strftime new_year "%Y%m%d-%H%M%S"]))
         runs.
Proof.
  eexists. split; [reflexivity|].
  exact (process_names_fixed scripted new_year [first_call; second_call] []
           _ eq_refl).
Defined.

Lemma import_names_shape_witness :
  value_of (load_module scripted (cold_world [])) = inl module_at_new_year
  /\ valid_datetime new_year = true
  /\ String.length (snapshot_name module_at_new_year) = 42%nat
  /\ String.length (copy_name module_at_new_year) = 38%nat
  /\ all_chars is_name_char (snapshot_name module_at_new_year) = true
  /\ all_chars is_name_char (copy_name module_at_new_year) = true.
Proof.
  split; [reflexivity|]. split; [reflexivity|].
  exact (import_names_shape scripted (cold_world []) module_at_new_year
           eq_refl eq_refl).
Defined.

Lemma import_names_distinct_witness :
  value_of (load_module scripted (cold_world [])) = inl module_at_new_year
  /\ value_of (load_module scripted (mkWorld five_seconds_later []))
     = inl module_five_seconds_later
  /\ valid_datetime new_year = true
  /\ valid_datetime five_seconds_later = true
  /\ (snapshot_name module_at_new_year
      = snapshot_name module_five_seconds_later
      <-> same_second new_year five_seconds_later)
  /\ (copy_name module_at_new_year = copy_name module_five_seconds_later
      <-> same_second new_year five_seconds_later).
Proof.
  split; [reflexivity|]. split; [reflexivity|].
  split; [reflexivity|]. split; [reflexivity|].
  exact (import_names_distinct scripted scripted (cold_world [])
           (mkWorld five_seconds_later []) module_at_new_year
           module_five_seconds_later eq_refl eq_refl eq_refl eq_refl).
Defined.

Lemma answer_determined_by_first_exception_witness :
  option_map fst (first_raise (log_of (scripted_run [Raises AlreadyExists])))
  = option_map fst
      (first_raise
         (log_of (lambda_handler snapshot_store module_at_new_year PyNone
                    (PyInt 7)
                    (mkWorld next_morning
                       ["rds-auto-snapshot-mainline-20260101-000000"]))))
  /\ value_of (scripted_run [Raises AlreadyExists])
     = value_of (lambda_handler snapshot_store module_at_new_year PyNone
                   (PyInt 7)
                   (mkWorld next_morning
                      ["rds-auto-snapshot-mainline-20260101-000000"])).
Proof.
  split; [reflexivity|].
  exact (answer_determined_by_first_exception scripted snapshot_store
           module_at_new_year scheduled_event PyNone
           (cold_world [Raises AlreadyExists]) PyNone (PyInt 7)
           (mkWorld next_morning
              ["rds-auto-snapshot-mainline-20260101-000000"])
           eq_refl).
Defined.
